(** * Loader-script generator of building-utils/index-html

    A shallow embedding of [loader-script.js]: the functions that assemble
    the source text of the bootstrap script (polyfill loading, then entry
    loading) are pure string builders, so each becomes a Rocq function on
    [string].  JavaScript's optional values are [option]s, the strategy tag
    of an entries config is an enumeration, and the collaborators that live
    in other modules ([cleanImportPath], [polyfillFilename], the minifier)
    are parameters of the development. *)

From Stdlib Require Import Strings.String Strings.Ascii Lists.List Bool Arith ZArith Lia.
Import ListNotations.
Open Scope string_scope.

(** ** JavaScript values used by the generator *)

Module Js.

(** The one-character string written [\n] in the source. *)
Definition nl : string := String (ascii_of_nat 10) EmptyString.

(** Truthiness of a value that is a string or [undefined]: the empty
    string and [undefined] are falsy. *)
Definition truthy (v : option string) : bool :=
  match v with
  | Some (String _ _) => true
  | _ => false
  end.

(** [Boolean(v)] for a value that is a boolean or [undefined]. *)
Definition Boolean (v : option bool) : bool :=
  match v with
  | Some b => b
  | None => false
  end.

(** A boolean interpolated in a template literal. *)
Definition show_bool (b : bool) : string := if b then "true" else "false".

(** [v === false]. *)
Definition is_false (v : option bool) : bool :=
  match v with
  | Some false => true
  | _ => false
  end.

(** [arr.join(sep)] on an array of strings. *)
Definition join (sep : string) (arr : list string) : string :=
  String.concat sep arr.

(** A default parameter: the default replaces [undefined] only. *)
Definition default {A : Type} (d : A) (v : option A) : A :=
  match v with
  | Some a => a
  | None => d
  end.

End Js.

(** ** Data model *)

(** The keys of [entryLoaderCreators]: the loading strategies. *)
Inductive EntriesType : Type := script | module | system.

Record EntriesConfig : Type := {
  type : EntriesType;
  files : list string;
  polyfillDynamicImport : option bool
}.

Record Polyfill : Type := {
  polyfill_name : string;
  polyfill_test : option string;
  polyfill_module : option bool
}.

Definition EntriesType_eqb (a b : EntriesType) : bool :=
  match a, b with
  | script, script | module, module | system, system => true
  | _, _ => false
  end.

(** ** Text measures used to state the properties *)

(** Number of occurrences of the character [c] in [s]. *)
Fixpoint count_char (c : ascii) (s : string) : nat :=
  match s with
  | EmptyString => 0
  | String a s' => (if Ascii.eqb a c then 1 else 0) + count_char c s'
  end.

(** [includes pat s]: [pat] occurs in [s] as a contiguous piece. *)
Fixpoint includes (pat s : string) : bool :=
  String.prefix pat s ||
  match s with
  | EmptyString => false
  | String _ s' => includes pat s'
  end.

(** ** The generator *)

Definition loadScriptFunction : string :=
  Js.nl ++
  "  function loadScript(src, module) {" ++ Js.nl ++
  "    return new Promise(function (resolve, reject) {" ++ Js.nl ++
  "      document.head.appendChild(Object.assign(" ++ Js.nl ++
  "        document.createElement('script')," ++ Js.nl ++
  "        { src: src, onload: resolve, onerror: reject }," ++ Js.nl ++
  "        module ? { type: 'module' } : undefined" ++ Js.nl ++
  "      ));" ++ Js.nl ++
  "    });" ++ Js.nl ++
  "  }" ++ Js.nl ++ Js.nl.

Definition createLoadScriptFunction
    (entries : EntriesConfig) (legacyEntries : option EntriesConfig)
    (polyfills : option (list Polyfill)) : string :=
  if match polyfills with
     | Some ps => Nat.ltb 0 (List.length ps)
     | None => false
     end
  then loadScriptFunction
  else if EntriesType_eqb (type entries) script ||
          match legacyEntries with
          | Some l => EntriesType_eqb (type l) script
          | None => false
          end
  then loadScriptFunction
  else "".

Definition asArrayLiteral (arr : list string) : string :=
  "[" ++ Js.join "," (map (fun e => "'" ++ e ++ "'") arr) ++ "]".

(** The dispatch table [entryLoaderCreators], indexed by strategy.  The
    [script] and [system] creators take one parameter and ignore a second
    argument; a call that passes no flag binds it to [undefined] ([None]). *)
Definition entryLoaderCreators (t : EntriesType) (files : list string)
    (polyfillDynamicImport : option bool) : string :=
  match t with
  | script =>
      match files with
      | [f] => "loadScript('" ++ f ++ "')"
      | _ => asArrayLiteral files ++ ".forEach(function (entry) { loadScript(entry); })"
      end
  | module =>
      let importFunction :=
        if Js.is_false polyfillDynamicImport then "import" else "window.importShim" in
      match files with
      | [f] => importFunction ++ "('" ++ f ++ "')"
      | _ => asArrayLiteral files ++ ".forEach(function (entry) { " ++
             importFunction ++ "(entry); })"
      end
  | system =>
      match files with
      | [f] => "System.import('" ++ f ++ "')"
      | _ => asArrayLiteral files ++ ".forEach(function (entry) { System.import(entry); })"
      end
  end.

Definition createExecuteLoadEntries (polyfills : option (list Polyfill)) : string :=
  if match polyfills with
     | Some ps => negb (Nat.eqb (List.length ps) 0)
     | None => false
     end
  then "polyfills.length ? Promise.all(polyfills).then(loadEntries) : loadEntries();"
  else "loadEntries()".

(** Stand-ins for the collaborators, to run the generator on examples:
    paths are kept as they are, a polyfill's file is named after the
    polyfill, and the minifier returns its input. *)
Definition keepPath (path publicPath : string) : string := path.

Definition filenameOfName (polyfill : Polyfill) (polyfillsConfig : unit) : string :=
  polyfill_name polyfill.

Definition identityMinify (code : string) : option string := Some code.

Section Generator.

(** [PolyfillsConfig] is opaque to this module: it is only handed to the
    filename resolver. *)
Variable PolyfillsConfig : Type.

(** [cleanImportPath(path, publicPath)] of [./utils]. *)
Variable cleanImportPath : string -> string -> string.

(** [polyfillFilename(polyfill, polyfillsConfig)] of [./utils]. *)
Variable polyfillFilename : Polyfill -> PolyfillsConfig -> string.

(** [code => Terser.minify(code).code]; [None] is an [undefined] result. *)
Variable minify : string -> option string.

Definition createEntriesLoaderFunction
    (entries : EntriesConfig) (legacyEntries : option EntriesConfig)
    (publicPath : string) : string :=
  let importPath := fun path => cleanImportPath path publicPath in
  match legacyEntries with
  | None =>
      entryLoaderCreators (type entries) (map importPath (files entries))
        (polyfillDynamicImport entries) ++ ";"
  | Some legacy =>
      let load :=
        entryLoaderCreators (type entries) (map importPath (files entries))
          (polyfillDynamicImport entries) in
      let loadLegacy :=
        entryLoaderCreators (type legacy) (map importPath (files legacy)) None in
      "'noModule' in HTMLScriptElement.prototype ? " ++ load ++ " : " ++ loadLegacy ++ ";"
  end.

Definition createEntriesLoader
    (entries : EntriesConfig) (legacyEntries : option EntriesConfig)
    (polyfills : option (list Polyfill)) (publicPath : string) : string :=
  let loadEntriesFunction := createEntriesLoaderFunction entries legacyEntries publicPath in
  let executeLoadEntries := createExecuteLoadEntries polyfills in
  Js.nl ++
  "  function loadEntries() {" ++ Js.nl ++
  "    " ++ loadEntriesFunction ++ Js.nl ++
  "  }" ++ Js.nl ++
  Js.nl ++
  "  " ++ executeLoadEntries ++ Js.nl.

(** One turn of the [forEach] callback of [createPolyfillsLoader]: the
    accumulated [code] after visiting [polyfill]. *)
Definition polyfillsLoaderStep (polyfillsConfig : PolyfillsConfig)
    (publicPath : string) (code : string) (polyfill : Polyfill) : string :=
  if negb (Js.truthy (polyfill_test polyfill)) then code
  else
    code ++
    "  if (" ++ Js.default "" (polyfill_test polyfill) ++
    ") { polyfills.push(loadScript('" ++ publicPath ++ "polyfills/" ++
    polyfillFilename polyfill polyfillsConfig ++
    ".js', " ++ Js.show_bool (Js.Boolean (polyfill_module polyfill)) ++ ")) }" ++ Js.nl.

Definition createPolyfillsLoader
    (polyfills : option (list Polyfill)) (polyfillsConfig : PolyfillsConfig)
    (publicPath : string) : string :=
  match polyfills with
  | None => ""
  | Some ps =>
      let code := "  var polyfills = [];" ++ Js.nl in
      fold_left (polyfillsLoaderStep polyfillsConfig publicPath) ps code
  end.

Definition createLoaderScript
    (entries : EntriesConfig) (legacyEntries : option EntriesConfig)
    (polyfills : option (list Polyfill)) (polyfillsConfig : PolyfillsConfig)
    (minified : option bool) (publicPath : string) : option string :=
  let code :=
    "(function() {" ++
    createLoadScriptFunction entries legacyEntries polyfills ++
    createPolyfillsLoader polyfills polyfillsConfig publicPath ++
    createEntriesLoader entries legacyEntries polyfills publicPath ++
    "})();" in
  if Js.default true minified then minify code else Some code.

Definition createPolyfillsLoaderScript
    (polyfills : option (list Polyfill)) (polyfillsConfig : PolyfillsConfig)
    (funcName : option string) (publicPath : string) : string :=
  "function " ++ Js.default "loadPolyfills" funcName ++ "() {" ++
  loadScriptFunction ++
  createPolyfillsLoader polyfills polyfillsConfig publicPath ++
  "return Promise.all(polyfills);" ++ Js.nl ++
  "}".

(** ** Forms the properties are stated with *)

(** The feature-detection test that opens the modern/legacy choice. *)
Definition noModuleCheck : string := "'noModule' in HTMLScriptElement.prototype ? ".

(** A load expression that calls [fn] on every file: one call for a single
    file, a [forEach] over the array literal otherwise. *)
Definition loadExpression (fn : string) (paths : list string) : string :=
  match paths with
  | [f] => fn ++ "('" ++ f ++ "')"
  | _ => asArrayLiteral paths ++ ".forEach(function (entry) { " ++ fn ++ "(entry); })"
  end.

(** The entry files of a config as the generated code names them. *)
Definition importPaths (entries : EntriesConfig) (publicPath : string) : list string :=
  map (fun path => cleanImportPath path publicPath) (files entries).

(** Occurrences of [c] inside the paths themselves. *)
Definition count_in_paths (c : ascii) (paths : list string) : nat :=
  list_sum (map (count_char c) paths).

(** The conditional statement of one tested polyfill. *)
Definition polyfillStatement (polyfillsConfig : PolyfillsConfig) (publicPath : string)
    (test : string) (polyfill : Polyfill) : string :=
  "if (" ++ test ++ ") { polyfills.push(loadScript('" ++ publicPath ++ "polyfills/" ++
  polyfillFilename polyfill polyfillsConfig ++ ".js', " ++
  Js.show_bool (Js.Boolean (polyfill_module polyfill)) ++ ")) }".

(** What one polyfill contributes: its statement on a line of its own when
    its test is truthy, nothing otherwise. *)
Definition polyfillBlock (polyfillsConfig : PolyfillsConfig) (publicPath : string)
    (polyfill : Polyfill) : string :=
  match polyfill_test polyfill with
  | Some (String a t) =>
      "  " ++ polyfillStatement polyfillsConfig publicPath (String a t) polyfill ++ Js.nl
  | _ => ""
  end.

(** Concatenation of a sequence of pieces, in order. *)
Definition flatten (pieces : list string) : string := fold_right append "" pieces.

(** The helper is needed: some polyfill is configured, or one of the
    configs loads with the [script] strategy. *)
Definition needsLoadScript (entries : EntriesConfig) (legacyEntries : option EntriesConfig)
    (polyfills : option (list Polyfill)) : Prop :=
  (exists p rest, polyfills = Some (p :: rest)) \/
  type entries = script \/
  (exists legacy, legacyEntries = Some legacy /\ type legacy = script).

(** *** Measures of the generated text *)

(** The two kinds of brackets the generated code opens and closes. *)
Inductive Bracket : Type := brace | paren.

Definition opening (k : Bracket) : ascii :=
  match k with brace => "{" | paren => "(" end%char.

Definition closing (k : Bracket) : ascii :=
  match k with brace => "}" | paren => ")" end%char.

(** Brackets of kind [k] that [s] opens, less those it closes. *)
Definition excess (k : Bracket) (s : string) : Z :=
  (Z.of_nat (count_char (opening k) s) - Z.of_nat (count_char (closing k) s))%Z.

Definition excess_list (k : Bracket) (pieces : list string) : Z :=
  fold_right Z.add 0%Z (map (excess k) pieces).

(** A polyfill that the loader tests for. *)
Definition tested (polyfill : Polyfill) : bool := Js.truthy (polyfill_test polyfill).

(** What the caller's strings of one polyfill bring to the excess: its test,
    the public path and its file name when it is tested, nothing otherwise. *)
Definition excess_polyfill (k : Bracket) (polyfillsConfig : PolyfillsConfig)
    (publicPath : string) (polyfill : Polyfill) : Z :=
  if tested polyfill
  then (excess k (Js.default "" (polyfill_test polyfill)) + excess k publicPath +
        excess k (polyfillFilename polyfill polyfillsConfig))%Z
  else 0%Z.

Definition excess_polyfills (k : Bracket) (polyfillsConfig : PolyfillsConfig)
    (publicPath : string) (polyfills : option (list Polyfill)) : Z :=
  match polyfills with
  | Some ps => fold_right Z.add 0%Z (map (excess_polyfill k polyfillsConfig publicPath) ps)
  | None => 0%Z
  end.

(** A path with no single quote in it. *)
Definition quote_free (path : string) : Prop := count_char "'" path = 0.

(** ** Strings: append, counting and inclusion *)

Lemma append_assoc (a b c : string) : (a ++ b) ++ c = a ++ b ++ c.
Proof.
  induction a as [|x a IH]; simpl; [reflexivity | now rewrite IH].
Qed.

Lemma append_nil_r (a : string) : a ++ "" = a.
Proof.
  induction a as [|x a IH]; simpl; [reflexivity | now rewrite IH].
Qed.


Lemma count_char_app (c : ascii) (a b : string) :
  count_char c (a ++ b) = count_char c a + count_char c b.
Proof.
  induction a as [|x a IH]; simpl; [reflexivity | rewrite IH; lia].
Qed.

Lemma prefix_count (c : ascii) (pat s : string) :
  String.prefix pat s = true -> count_char c pat <= count_char c s.
Proof.
  revert s; induction pat as [|x pat IH]; intros s H; simpl; [lia |].
  destruct s as [|y s]; simpl in H; [discriminate |].
  destruct (ascii_dec x y) as [->|]; [| discriminate].
  simpl. specialize (IH s H). lia.
Qed.

Lemma includes_count (c : ascii) (pat s : string) :
  includes pat s = true -> count_char c pat <= count_char c s.
Proof.
  induction s as [|y s IH]; intros H.
  - destruct pat; simpl in *; [lia | discriminate].
  - change (String.prefix pat (String y s) || includes pat s = true) in H.
    apply orb_true_iff in H. destruct H as [H|H].
    + now apply (prefix_count c) in H.
    + specialize (IH H). simpl. lia.
Qed.

Lemma includes_absent_char (c : ascii) (pat s : string) :
  0 < count_char c pat -> count_char c s = 0 -> includes pat s = false.
Proof.
  intros Hp Hs. destruct (includes pat s) eqn:E; [| reflexivity].
  apply (includes_count c) in E. lia.
Qed.

Lemma includes_app_r (pat pre s : string) :
  includes pat s = true -> includes pat (pre ++ s) = true.
Proof.
  intros H. induction pre as [|x pre IH]; [exact H |].
  change (String.prefix pat (String x (pre ++ s)) || includes pat (pre ++ s) = true).
  rewrite IH. apply orb_true_r.
Qed.

Lemma prefix_app (p q : string) : String.prefix p (p ++ q) = true.
Proof.
  induction p as [|x p IH]; simpl; [now destruct q |].
  destruct (ascii_dec x x); [exact IH | congruence].
Qed.

Lemma includes_here (pat post : string) : includes pat (pat ++ post) = true.
Proof.
  assert (H : forall s, String.prefix pat s = true -> includes pat s = true).
  { intros s Hs.
    destruct s as [|y s];
      [change (String.prefix pat "" || false = true)
      |change (String.prefix pat (String y s) || includes pat s = true)];
      rewrite Hs; reflexivity. }
  apply H, prefix_app.
Qed.

(** ** Layout of the assembled script *)

(** The unminified script, piece by piece in the order of assembly. *)
Lemma createLoaderScript_unminified entries legacyEntries polyfills polyfillsConfig publicPath :
  createLoaderScript entries legacyEntries polyfills polyfillsConfig (Some false) publicPath =
  Some ("(function() {" ++
        createLoadScriptFunction entries legacyEntries polyfills ++
        createPolyfillsLoader polyfills polyfillsConfig publicPath ++
        Js.nl ++
        "  function loadEntries() {" ++ Js.nl ++
        "    " ++ createEntriesLoaderFunction entries legacyEntries publicPath ++ Js.nl ++
        "  }" ++ Js.nl ++
        Js.nl ++
        "  " ++ createExecuteLoadEntries polyfills ++ Js.nl ++
        "})();").
Proof.
  cbv [createLoaderScript createEntriesLoader Js.default].
  now rewrite !append_assoc.
Qed.

Lemma loadScriptFunction_nonempty : loadScriptFunction <> "".
Proof. discriminate. Qed.

Lemma EntriesType_eqb_eq (a b : EntriesType) : EntriesType_eqb a b = true <-> a = b.
Proof. destruct a, b; simpl; split; congruence. Qed.

(** The helper is emitted exactly when it is needed. *)
Lemma createLoadScriptFunction_needed entries legacyEntries polyfills :
  needsLoadScript entries legacyEntries polyfills ->
  createLoadScriptFunction entries legacyEntries polyfills = loadScriptFunction.
Proof.
  unfold needsLoadScript, createLoadScriptFunction.
  intros [(p & rest & ->) | [Ht | (legacy & -> & Ht)]].
  - reflexivity.
  - rewrite Ht. simpl. now destruct polyfills as [[|]|].
  - rewrite Ht. simpl. rewrite orb_true_r. now destruct polyfills as [[|]|].
Qed.

Lemma createLoadScriptFunction_unneeded entries legacyEntries polyfills :
  ~ needsLoadScript entries legacyEntries polyfills ->
  createLoadScriptFunction entries legacyEntries polyfills = "".
Proof.
  unfold needsLoadScript, createLoadScriptFunction. intros H.
  destruct polyfills as [[|p rest]|]; simpl;
    try (exfalso; apply H; left; eauto; fail);
    (destruct (EntriesType_eqb (type entries) script) eqn:E1;
     [apply EntriesType_eqb_eq in E1; tauto |]);
    (destruct legacyEntries as [legacy|]; simpl; [| reflexivity]);
    (destruct (EntriesType_eqb (type legacy) script) eqn:E2; [| reflexivity]);
    apply EntriesType_eqb_eq in E2; exfalso; apply H; right; right; eauto.
Qed.

(** ** Properties of the generator *)

(** C4: [createPolyfillsLoader] gives the empty string for an absent
    polyfills argument and just the line declaring [polyfills] for an empty
    sequence, so the two inputs are told apart by the output. *)
Theorem createPolyfillsLoader_absent_vs_empty polyfillsConfig publicPath :
  createPolyfillsLoader None polyfillsConfig publicPath = "" /\
  createPolyfillsLoader (Some []) polyfillsConfig publicPath =
    "  var polyfills = [];" ++ Js.nl /\
  createPolyfillsLoader None polyfillsConfig publicPath <>
    createPolyfillsLoader (Some []) polyfillsConfig publicPath.
Proof.
  repeat split; discriminate.
Qed.


(** The helper is emitted when needed and only then. *)
Lemma createLoaderScript_loadScript_helper_iff_aux entries legacyEntries polyfills :
  (createLoadScriptFunction entries legacyEntries polyfills = loadScriptFunction ->
   needsLoadScript entries legacyEntries polyfills) /\
  (needsLoadScript entries legacyEntries polyfills ->
   createLoadScriptFunction entries legacyEntries polyfills = loadScriptFunction).
Proof.
  split; [| apply createLoadScriptFunction_needed].
  intros E.
  destruct polyfills as [[|p rest]|];
    [| left; eauto |];
    unfold needsLoadScript, createLoadScriptFunction in *; simpl in E;
    (destruct (EntriesType_eqb (type entries) script) eqn:E1;
     [apply EntriesType_eqb_eq in E1; tauto |]);
    (destruct legacyEntries as [legacy|]; simpl in E; [| discriminate]);
    (destruct (EntriesType_eqb (type legacy) script) eqn:E2; [| discriminate]);
    apply EntriesType_eqb_eq in E2; right; right; eauto.
Qed.

(** C5 (as the code has it): in the unminified script the text of the
    [loadScript] helper is the piece that follows the opening exactly when a
    polyfill is configured, or the modern entries use the [script] strategy,
    or a legacy config is present and uses it; otherwise that piece is
    empty. *)
Theorem createLoaderScript_loadScript_helper_iff
    entries legacyEntries polyfills polyfillsConfig publicPath :
  (createLoadScriptFunction entries legacyEntries polyfills = loadScriptFunction <->
   needsLoadScript entries legacyEntries polyfills) /\
  (createLoadScriptFunction entries legacyEntries polyfills = "" <->
   ~ needsLoadScript entries legacyEntries polyfills) /\
  createLoaderScript entries legacyEntries polyfills polyfillsConfig (Some false) publicPath =
  Some ("(function() {" ++
        createLoadScriptFunction entries legacyEntries polyfills ++
        createPolyfillsLoader polyfills polyfillsConfig publicPath ++
        createEntriesLoader entries legacyEntries polyfills publicPath ++
        "})();").
Proof.
  destruct (createLoaderScript_loadScript_helper_iff_aux entries legacyEntries polyfills)
    as [H1 H2].
  split; [split; assumption |]. split; [| reflexivity].
  split; [| apply createLoadScriptFunction_unneeded].
  intros E H. apply H2 in H. rewrite H in E.
  now apply loadScriptFunction_nonempty in E.
Qed.

(** C10 (as the code has it): with a present but empty polyfills sequence
    the unminified script declares [polyfills], while the helper is emitted
    as for an absent sequence (only when a [script] strategy asks for it)
    and the entries are started by the direct call [loadEntries()]. *)
Theorem createLoaderScript_empty_polyfills entries legacyEntries polyfillsConfig publicPath :
  createLoadScriptFunction entries legacyEntries (Some []) =
    createLoadScriptFunction entries legacyEntries None /\
  (createLoadScriptFunction entries legacyEntries (Some []) = loadScriptFunction <->
   type entries = script \/
   (exists legacy, legacyEntries = Some legacy /\ type legacy = script)) /\
  createExecuteLoadEntries (Some []) = "loadEntries()" /\
  createLoaderScript entries legacyEntries (Some []) polyfillsConfig (Some false) publicPath =
  Some ("(function() {" ++
        createLoadScriptFunction entries legacyEntries None ++
        "  var polyfills = [];" ++ Js.nl ++
        Js.nl ++
        "  function loadEntries() {" ++ Js.nl ++
        "    " ++ createEntriesLoaderFunction entries legacyEntries publicPath ++ Js.nl ++
        "  }" ++ Js.nl ++
        Js.nl ++
        "  loadEntries()" ++ Js.nl ++
        "})();").
Proof.
  split; [reflexivity |]. split; [| split; [reflexivity |]].
  - destruct (createLoaderScript_loadScript_helper_iff_aux entries legacyEntries (Some []))
      as [H1 H2].
    split.
    + intros E. apply H1 in E. destruct E as [(p & rest & E) | E]; [discriminate | exact E].
    + intros E. apply H2. right. exact E.
  - rewrite createLoaderScript_unminified. reflexivity.
Qed.

(** C1 (as the code has it): for the single [script] entry [a.js], no legacy
    entries, no polyfills and [minified = false], the script is the
    self-invoking function holding the [loadScript] helper, the declaration
    of [loadEntries] whose body is [loadScript('<cleaned a.js>');], and the
    direct call [loadEntries()]. *)
Theorem createLoaderScript_single_script_entry polyfillsConfig publicPath :
  createLoaderScript
    {| type := script; files := ["a.js"]; polyfillDynamicImport := None |}
    None None polyfillsConfig (Some false) publicPath =
  Some ("(function() {" ++
        loadScriptFunction ++
        Js.nl ++
        "  function loadEntries() {" ++ Js.nl ++
        "    " ++ "loadScript('" ++ cleanImportPath "a.js" publicPath ++ "');" ++ Js.nl ++
        "  }" ++ Js.nl ++
        Js.nl ++
        "  loadEntries()" ++ Js.nl ++
        "})();").
Proof.
  rewrite createLoaderScript_unminified.
  cbv [createLoadScriptFunction createPolyfillsLoader createEntriesLoaderFunction
       createExecuteLoadEntries entryLoaderCreators EntriesType_eqb type files orb map].
  cbn [append].
  now rewrite !append_assoc.
Qed.

(** Whatever the collaborators are, that script is not the bare wrapper
    around a call of [loadEntries]. *)
Lemma createLoaderScript_single_script_entry_not_bare polyfillsConfig publicPath :
  createLoaderScript
    {| type := script; files := ["a.js"]; polyfillDynamicImport := None |}
    None None polyfillsConfig (Some false) publicPath <>
  Some "(function() {loadEntries();})();".
Proof.
  rewrite createLoaderScript_unminified. discriminate.
Qed.

(** *** Question marks of a load expression *)

Lemma count_question_join (paths : list string) :
  count_char "?" (Js.join "," (map (fun e => "'" ++ e ++ "'") paths)) =
  count_in_paths "?" paths.
Proof.
  unfold Js.join, count_in_paths.
  induction paths as [|f [|g rest] IH].
  - reflexivity.
  - cbn [map String.concat list_sum fold_right].
    rewrite !count_char_app. simpl. lia.
  - change (count_char "?" (("'" ++ f ++ "'") ++ "," ++
              String.concat "," (map (fun e => "'" ++ e ++ "'") (g :: rest))) =
            count_char "?" f + list_sum (map (count_char "?") (g :: rest))).
    rewrite !count_char_app, IH. simpl. lia.
Qed.

Lemma count_question_asArrayLiteral (paths : list string) :
  count_char "?" (asArrayLiteral paths) = count_in_paths "?" paths.
Proof.
  unfold asArrayLiteral. rewrite !count_char_app, count_question_join. simpl. lia.
Qed.

Lemma count_question_loadExpression (fn : string) (paths : list string) :
  count_char "?" fn = 0 ->
  count_char "?" (loadExpression fn paths) = count_in_paths "?" paths.
Proof.
  intros Hfn. unfold loadExpression.
  destruct paths as [|f [|g rest]];
    rewrite ?count_char_app, ?count_question_asArrayLiteral, ?Hfn;
    unfold count_in_paths; simpl; lia.
Qed.

(** Every creator of the table is a [loadExpression]. *)
Lemma entryLoaderCreators_loadExpression t paths flag :
  entryLoaderCreators t paths flag =
  loadExpression
    match t with
    | script => "loadScript"
    | module => if Js.is_false flag then "import" else "window.importShim"
    | system => "System.import"
    end paths.
Proof.
  destruct t; unfold entryLoaderCreators, loadExpression;
    destruct paths as [|f [|g rest]]; try reflexivity;
    cbn zeta; now rewrite ?append_assoc.
Qed.

Lemma count_question_entryLoaderCreators t paths flag :
  count_char "?" (entryLoaderCreators t paths flag) = count_in_paths "?" paths.
Proof.
  rewrite entryLoaderCreators_loadExpression.
  apply count_question_loadExpression.
  destruct t; [reflexivity | now destruct (Js.is_false flag) | reflexivity].
Qed.

(** A load expression opens with a function name or a bracket, never with
    the quote of the feature test. *)
Lemma entryLoaderCreators_not_check t paths flag rest :
  String.prefix noModuleCheck (entryLoaderCreators t paths flag ++ rest) = false.
Proof.
  destruct t; unfold entryLoaderCreators;
    try destruct (Js.is_false flag); destruct paths as [|f [|g more]]; reflexivity.
Qed.

(** C3: with a legacy config the body of [loadEntries] is the single
    conditional [<check> ? <modern> : <legacy>;] over both load expressions,
    with one question mark besides those of the paths themselves; without
    one it is the modern expression followed by [;], it does not open with
    the feature test, and it has no question mark besides those of its
    paths. *)
Theorem createEntriesLoaderFunction_body entries publicPath :
  (forall legacy,
     createEntriesLoaderFunction entries (Some legacy) publicPath =
       "'noModule' in HTMLScriptElement.prototype ? " ++
       entryLoaderCreators (type entries) (importPaths entries publicPath)
         (polyfillDynamicImport entries) ++
       " : " ++
       entryLoaderCreators (type legacy) (importPaths legacy publicPath) None ++
       ";" /\
     count_char "?" (createEntriesLoaderFunction entries (Some legacy) publicPath) =
       1 + count_in_paths "?" (importPaths entries publicPath) +
       count_in_paths "?" (importPaths legacy publicPath)) /\
  createEntriesLoaderFunction entries None publicPath =
    entryLoaderCreators (type entries) (importPaths entries publicPath)
      (polyfillDynamicImport entries) ++ ";" /\
  String.prefix noModuleCheck (createEntriesLoaderFunction entries None publicPath) = false /\
  count_char "?" (createEntriesLoaderFunction entries None publicPath) =
    count_in_paths "?" (importPaths entries publicPath).
Proof.
  unfold createEntriesLoaderFunction, importPaths.
  split; [intros legacy; split | split; [| split]]; try reflexivity.
  - rewrite !count_char_app, !count_question_entryLoaderCreators. simpl. lia.
  - apply entryLoaderCreators_not_check.
  - rewrite count_char_app, count_question_entryLoaderCreators. simpl. lia.
Qed.


(** C7: the legacy expression is built by the creator of the legacy
    config's type with no flag argument, so a legacy [module] config loads
    with [window.importShim] whatever its [polyfillDynamicImport] field is. *)
Theorem legacy_ignores_polyfillDynamicImport entries publicPath :
  (forall legacy,
     createEntriesLoaderFunction entries (Some legacy) publicPath =
     noModuleCheck ++
     entryLoaderCreators (type entries) (importPaths entries publicPath)
       (polyfillDynamicImport entries) ++
     " : " ++
     entryLoaderCreators (type legacy) (importPaths legacy publicPath) None ++ ";") /\
  (forall files flag,
     createEntriesLoaderFunction entries
       (Some {| type := module; files := files; polyfillDynamicImport := flag |})
       publicPath =
     noModuleCheck ++
     entryLoaderCreators (type entries) (importPaths entries publicPath)
       (polyfillDynamicImport entries) ++
     " : " ++
     loadExpression "window.importShim"
       (map (fun path => cleanImportPath path publicPath) files) ++ ";").
Proof.
  split; [reflexivity |].
  intros files0 flag. unfold createEntriesLoaderFunction, importPaths.
  cbn [type files polyfillDynamicImport].
  now rewrite (entryLoaderCreators_loadExpression module).
Qed.

(** *** The polyfill loop *)

(** One turn of the loop appends the block of the visited polyfill. *)
Lemma polyfillsLoaderStep_block polyfillsConfig publicPath code polyfill :
  polyfillsLoaderStep polyfillsConfig publicPath code polyfill =
  code ++ polyfillBlock polyfillsConfig publicPath polyfill.
Proof.
  unfold polyfillsLoaderStep, polyfillBlock, polyfillStatement.
  destruct (polyfill_test polyfill) as [[|a t]|]; cbn [Js.truthy negb Js.default];
    rewrite ?append_nil_r; try reflexivity.
  f_equal. rewrite !append_assoc. reflexivity.
Qed.

Lemma polyfills_fold_blocks polyfillsConfig publicPath polyfills code :
  fold_left (polyfillsLoaderStep polyfillsConfig publicPath) polyfills code =
  code ++ flatten (map (polyfillBlock polyfillsConfig publicPath) polyfills).
Proof.
  revert code. induction polyfills as [|p rest IH]; intros code; cbn [fold_left map flatten fold_right].
  - now rewrite append_nil_r.
  - rewrite IH, polyfillsLoaderStep_block. apply append_assoc.
Qed.

(** C8: after the declaration of [polyfills], the emitted code is the
    blocks of the polyfills one after the other in input order, where a
    polyfill with a truthy [test] gives the one statement
    [if (<test>) { polyfills.push(loadScript('<publicPath>polyfills/<name>.js', <bool>)) }]
    with [<bool>] the coercion of its [module] field, and a polyfill with a
    falsy [test] gives nothing. *)
Theorem createPolyfillsLoader_blocks polyfillsConfig publicPath :
  (forall polyfills,
     createPolyfillsLoader (Some polyfills) polyfillsConfig publicPath =
     "  var polyfills = [];" ++ Js.nl ++
     flatten (map (polyfillBlock polyfillsConfig publicPath) polyfills)) /\
  (forall name a t m,
     polyfillBlock polyfillsConfig publicPath
       {| polyfill_name := name; polyfill_test := Some (String a t); polyfill_module := m |} =
     "  " ++
     "if (" ++ String a t ++ ") { polyfills.push(loadScript('" ++ publicPath ++ "polyfills/" ++
     polyfillFilename
       {| polyfill_name := name; polyfill_test := Some (String a t); polyfill_module := m |}
       polyfillsConfig ++
     ".js', " ++
     match m with Some true => "true" | _ => "false" end ++
     ")) }" ++ Js.nl) /\
  (forall name m,
     polyfillBlock polyfillsConfig publicPath
       {| polyfill_name := name; polyfill_test := None; polyfill_module := m |} = "" /\
     polyfillBlock polyfillsConfig publicPath
       {| polyfill_name := name; polyfill_test := Some ""; polyfill_module := m |} = "") /\
  (forall before after : list Polyfill,
     createPolyfillsLoader (Some (before ++ after)%list) polyfillsConfig publicPath =
     createPolyfillsLoader (Some before) polyfillsConfig publicPath ++
     flatten (map (polyfillBlock polyfillsConfig publicPath) after)).
Proof.
  split; [| split; [| split]].
  - intros polyfills. unfold createPolyfillsLoader.
    rewrite polyfills_fold_blocks. now rewrite append_assoc.
  - intros name a t m. unfold polyfillBlock, polyfillStatement.
    cbn [polyfill_test polyfill_module].
    destruct m as [[|]|]; cbn [Js.Boolean Js.show_bool]; rewrite !append_assoc; reflexivity.
  - intros name m. split; reflexivity.
  - intros before after. unfold createPolyfillsLoader.
    now rewrite fold_left_app, (polyfills_fold_blocks _ _ after).
Qed.

(** C9: for an absent polyfills argument the function source is the
    header, the [loadScript] helper and [return Promise.all(polyfills);]:
    the return statement is there, and when the function name has no
    bracket the declaration [var polyfills = [];] occurs nowhere in it. *)
Theorem createPolyfillsLoaderScript_absent polyfillsConfig funcName publicPath :
  createPolyfillsLoaderScript None polyfillsConfig funcName publicPath =
    "function " ++ Js.default "loadPolyfills" funcName ++ "() {" ++
    loadScriptFunction ++ "return Promise.all(polyfills);" ++ Js.nl ++ "}" /\
  includes "return Promise.all(polyfills);"
    (createPolyfillsLoaderScript None polyfillsConfig funcName publicPath) = true /\
  (count_char "[" (Js.default "loadPolyfills" funcName) = 0 ->
   includes "var polyfills = [];"
     (createPolyfillsLoaderScript None polyfillsConfig funcName publicPath) = false).
Proof.
  unfold createPolyfillsLoaderScript, createPolyfillsLoader.
  split; [reflexivity | split].
  - do 2 apply includes_app_r. reflexivity.
  - intros H. apply (includes_absent_char "["); [simpl; lia |].
    rewrite !count_char_app, H. reflexivity.
Qed.

(** ** Further properties of the generator *)

(** *** The array literal *)

Lemma length_append (a b : string) :
  String.length (a ++ b) = String.length a + String.length b.
Proof.
  induction a as [|x a IH]; simpl; [reflexivity | now rewrite IH].
Qed.

Lemma append_inv_tail (a b c : string) : a ++ c = b ++ c -> a = b.
Proof.
  revert b. induction a as [|x a IH]; intros [|y b] H.
  - reflexivity.
  - apply (f_equal String.length) in H.
    rewrite (length_append (String y b)) in H. simpl in H. lia.
  - apply (f_equal String.length) in H.
    rewrite (length_append (String x a)) in H. simpl in H. lia.
  - simpl in H. injection H as -> H. f_equal. now apply IH.
Qed.

(** Two quote-free strings that are each followed by a quote are told apart
    by the text up to that quote. *)
Lemma split_at_quote (a b r1 r2 : string) :
  quote_free a -> quote_free b ->
  a ++ String "'" r1 = b ++ String "'" r2 -> a = b /\ r1 = r2.
Proof.
  unfold quote_free. revert b.
  induction a as [|x a IH]; intros [|y b] Ha Hb H; simpl in *.
  - injection H as ->. now split.
  - injection H as Hy _. subst y. discriminate Hb.
  - injection H as Hx _. subst x. discriminate Ha.
  - injection H as -> H.
    destruct (Ascii.eqb y "'") eqn:E; [discriminate |].
    destruct (IH b Ha Hb H) as [-> ->]. now split.
Qed.

(** What follows the first element in the joined text. *)
Lemma join_quoted_cons (f : string) (rest : list string) :
  Js.join "," (map (fun e => "'" ++ e ++ "'") (f :: rest)) =
  String "'" (f ++ String "'"
    match rest with
    | [] => ""
    | _ :: _ => "," ++ Js.join "," (map (fun e => "'" ++ e ++ "'") rest)
    end).
Proof.
  unfold Js.join. destruct rest as [|g rest].
  - reflexivity.
  - change (("'" ++ f ++ "'") ++ "," ++
            String.concat "," (map (fun e => "'" ++ e ++ "'") (g :: rest)) =
            String "'" (f ++ String "'" ("," ++
              String.concat "," (map (fun e => "'" ++ e ++ "'") (g :: rest))))).
    cbn [append]. f_equal. now rewrite append_assoc.
Qed.

Lemma join_quoted_injective (l1 l2 : list string) :
  Forall quote_free l1 -> Forall quote_free l2 ->
  Js.join "," (map (fun e => "'" ++ e ++ "'") l1) =
  Js.join "," (map (fun e => "'" ++ e ++ "'") l2) ->
  l1 = l2.
Proof.
  revert l2. induction l1 as [|f r1 IH]; intros [|g r2] H1 H2 H.
  - reflexivity.
  - rewrite join_quoted_cons in H. discriminate.
  - rewrite join_quoted_cons in H. discriminate.
  - rewrite !join_quoted_cons in H. injection H as H.
    inversion H1 as [|? ? Hf Hr1]; subst. inversion H2 as [|? ? Hg Hr2]; subst.
    destruct (split_at_quote _ _ _ _ Hf Hg H) as [-> Ht].
    f_equal. destruct r1 as [|a r1], r2 as [|b r2]; try discriminate.
    + reflexivity.
    + injection Ht as Ht. now apply IH.
Qed.

(** X1: the array literal does not escape quotes: a path that holds the
    text [','] is written exactly as two paths are. *)
Theorem asArrayLiteral_unescaped_merge (a b : string) (rest : list string) :
  asArrayLiteral ((a ++ "','" ++ b) :: rest) = asArrayLiteral (a :: b :: rest).
Proof.
  unfold asArrayLiteral.
  rewrite !join_quoted_cons, !append_assoc. reflexivity.
Qed.

(** X2: on paths without a single quote the array literal is one-to-one:
    equal literals come from equal sequences of paths. *)
Theorem asArrayLiteral_injective (l1 l2 : list string) :
  Forall quote_free l1 -> Forall quote_free l2 ->
  asArrayLiteral l1 = asArrayLiteral l2 -> l1 = l2.
Proof.
  unfold asArrayLiteral. intros H1 H2 H.
  injection H as H. apply append_inv_tail in H.
  now apply join_quoted_injective.
Qed.

(** X3: a load expression starts with the array literal of its paths
    followed by [.forEach(function (entry) { ] exactly when the number of
    files is not one, so also for no file at all. *)
Theorem entryLoaderCreators_array_form t paths flag :
  String.prefix (asArrayLiteral paths) (entryLoaderCreators t paths flag) =
    negb (Nat.eqb (List.length paths) 1) /\
  String.prefix (asArrayLiteral paths ++ ".forEach(function (entry) { ")
    (entryLoaderCreators t paths flag) =
    negb (Nat.eqb (List.length paths) 1).
Proof.
  rewrite entryLoaderCreators_loadExpression. unfold loadExpression.
  destruct paths as [|f [|g rest]]; cbn [List.length Nat.eqb negb].
  - split; [apply prefix_app |].
    rewrite <- append_assoc. apply prefix_app.
  - split; destruct t; try destruct (Js.is_false flag); reflexivity.
  - split; [apply prefix_app |].
    rewrite <- append_assoc. apply prefix_app.
Qed.

(** X4: the [polyfillDynamicImport] field of the legacy config, and that of
    a modern config of type [script] or [system], has no effect on the
    script, minified or not. *)
Theorem createLoaderScript_flag_irrelevant
    entries legacyEntries polyfills polyfillsConfig minified publicPath t fs flag1 flag2 :
  createLoaderScript entries
    (Some {| type := t; files := fs; polyfillDynamicImport := flag1 |})
    polyfills polyfillsConfig minified publicPath =
  createLoaderScript entries
    (Some {| type := t; files := fs; polyfillDynamicImport := flag2 |})
    polyfills polyfillsConfig minified publicPath /\
  createLoaderScript {| type := script; files := fs; polyfillDynamicImport := flag1 |}
    legacyEntries polyfills polyfillsConfig minified publicPath =
  createLoaderScript {| type := script; files := fs; polyfillDynamicImport := flag2 |}
    legacyEntries polyfills polyfillsConfig minified publicPath /\
  createLoaderScript {| type := system; files := fs; polyfillDynamicImport := flag1 |}
    legacyEntries polyfills polyfillsConfig minified publicPath =
  createLoaderScript {| type := system; files := fs; polyfillDynamicImport := flag2 |}
    legacyEntries polyfills polyfillsConfig minified publicPath.
Proof.
  repeat split; reflexivity.
Qed.

(** *** Polyfills that are tested and polyfills that are not *)

Lemma polyfillBlock_untested polyfillsConfig publicPath polyfill :
  tested polyfill = false -> polyfillBlock polyfillsConfig publicPath polyfill = "".
Proof.
  unfold tested, polyfillBlock.
  now destruct (polyfill_test polyfill) as [[|a t]|].
Qed.

Lemma blocks_filter_tested polyfillsConfig publicPath polyfills :
  flatten (map (polyfillBlock polyfillsConfig publicPath) (filter tested polyfills)) =
  flatten (map (polyfillBlock polyfillsConfig publicPath) polyfills).
Proof.
  induction polyfills as [|p rest IH]; [reflexivity |].
  cbn [filter map flatten fold_right]. destruct (tested p) eqn:E.
  - cbn [map flatten fold_right]. f_equal. exact IH.
  - rewrite (polyfillBlock_untested _ _ _ E). exact IH.
Qed.

Lemma includes_block polyfillsConfig publicPath polyfill polyfills :
  In polyfill polyfills ->
  includes (polyfillBlock polyfillsConfig publicPath polyfill)
    (flatten (map (polyfillBlock polyfillsConfig publicPath) polyfills)) = true.
Proof.
  induction polyfills as [|p rest IH]; intros H; [destruct H |].
  destruct H as [-> | H]; cbn [map flatten fold_right].
  - apply includes_here.
  - apply includes_app_r. now apply IH.
Qed.

(** X5: polyfills without a truthy test leave no trace in the polyfill
    code: dropping them from the sequence gives the same text. *)
Theorem createPolyfillsLoader_filter_tested polyfills polyfillsConfig publicPath :
  createPolyfillsLoader (Some (filter tested polyfills)) polyfillsConfig publicPath =
  createPolyfillsLoader (Some polyfills) polyfillsConfig publicPath.
Proof.
  unfold createPolyfillsLoader.
  now rewrite !polyfills_fold_blocks, blocks_filter_tested.
Qed.

(** X6: when a configured polyfill has a truthy test, its statement is in
    the polyfill code, the [loadScript] helper it calls is emitted, and the
    entries wait for the polyfills through the [Promise.all] conditional. *)
Theorem tested_polyfill_is_loaded
    entries legacyEntries polyfills polyfillsConfig publicPath polyfill :
  In polyfill polyfills ->
  tested polyfill = true ->
  includes (polyfillBlock polyfillsConfig publicPath polyfill)
    (createPolyfillsLoader (Some polyfills) polyfillsConfig publicPath) = true /\
  polyfillBlock polyfillsConfig publicPath polyfill <> "" /\
  createLoadScriptFunction entries legacyEntries (Some polyfills) = loadScriptFunction /\
  createExecuteLoadEntries (Some polyfills) =
    "polyfills.length ? Promise.all(polyfills).then(loadEntries) : loadEntries();".
Proof.
  intros Hin Ht. split; [| split].
  - unfold createPolyfillsLoader. rewrite polyfills_fold_blocks.
    apply includes_app_r. now apply includes_block.
  - unfold tested in Ht. unfold polyfillBlock.
    destruct (polyfill_test polyfill) as [[|a t]|]; discriminate.
  - destruct polyfills as [|p rest]; [destruct Hin |]. split; reflexivity.
Qed.

(** X7: a non-empty sequence of polyfills none of which has a truthy test
    still brings the helper and the [Promise.all] conditional into the
    script, although the polyfill code is the bare declaration. *)
Theorem createLoaderScript_untested_polyfills
    entries legacyEntries polyfills polyfillsConfig publicPath :
  polyfills <> [] ->
  forallb (fun p => negb (tested p)) polyfills = true ->
  createLoaderScript entries legacyEntries (Some polyfills) polyfillsConfig
    (Some false) publicPath =
  Some ("(function() {" ++
        loadScriptFunction ++
        "  var polyfills = [];" ++ Js.nl ++
        Js.nl ++
        "  function loadEntries() {" ++ Js.nl ++
        "    " ++ createEntriesLoaderFunction entries legacyEntries publicPath ++ Js.nl ++
        "  }" ++ Js.nl ++
        Js.nl ++
        "  polyfills.length ? Promise.all(polyfills).then(loadEntries) : loadEntries();" ++
        Js.nl ++
        "})();").
Proof.
  intros Hne Hall. rewrite createLoaderScript_unminified.
  assert (Hcode : createPolyfillsLoader (Some polyfills) polyfillsConfig publicPath =
                  "  var polyfills = [];" ++ Js.nl).
  { unfold createPolyfillsLoader. rewrite polyfills_fold_blocks.
    rewrite <- blocks_filter_tested.
    replace (filter tested polyfills) with (@nil Polyfill);
      [now rewrite append_nil_r |].
    clear Hne. induction polyfills as [|p rest IH]; [reflexivity |].
    cbn [forallb] in Hall. apply andb_true_iff in Hall. destruct Hall as [Hp Hrest].
    cbn [filter]. apply negb_true_iff in Hp. rewrite Hp. now apply IH. }
  rewrite Hcode. destruct polyfills as [|p rest]; [now elim Hne |].
  cbv [createLoadScriptFunction createExecuteLoadEntries List.length Nat.ltb Nat.leb
       Nat.eqb negb].
  rewrite !append_assoc. reflexivity.
Qed.

(** *** The polyfills-only function *)

(** X8: whatever the polyfills are, the source of the polyfills-only
    function holds the [loadScript] helper and the final
    [return Promise.all(polyfills);]; when the polyfills argument is present
    it also holds the declaration of [polyfills]. *)
Theorem createPolyfillsLoaderScript_contents polyfills polyfillsConfig funcName publicPath :
  includes loadScriptFunction
    (createPolyfillsLoaderScript polyfills polyfillsConfig funcName publicPath) = true /\
  includes "return Promise.all(polyfills);"
    (createPolyfillsLoaderScript polyfills polyfillsConfig funcName publicPath) = true /\
  (forall ps,
     includes "  var polyfills = [];"
       (createPolyfillsLoaderScript (Some ps) polyfillsConfig funcName publicPath) = true).
Proof.
  unfold createPolyfillsLoaderScript. split; [| split].
  - do 3 apply includes_app_r. apply includes_here.
  - do 5 apply includes_app_r. reflexivity.
  - intros ps. do 4 apply includes_app_r.
    unfold createPolyfillsLoader. rewrite polyfills_fold_blocks, !append_assoc.
    apply includes_here.
Qed.

(** *** Balance of braces and parentheses *)

Lemma excess_app (k : Bracket) (a b : string) :
  excess k (a ++ b) = (excess k a + excess k b)%Z.
Proof.
  unfold excess. rewrite !count_char_app. lia.
Qed.

(** Evaluates the excess of every closed piece of text in the goal. *)
Ltac eval_closed_excess :=
  repeat match goal with
  | |- context [excess ?k ?s] =>
      let v := eval vm_compute in (excess k s) in
      lazymatch v with
      | Z0 => idtac
      | Zpos _ => idtac
      | Zneg _ => idtac
      end;
      change (excess k s) with v
  end.

(** Splits the text at its appends and settles the arithmetic that is left. *)
Ltac excess_arith := rewrite ?excess_app; eval_closed_excess; lia.

Lemma excess_join (k : Bracket) (paths : list string) :
  excess k (Js.join "," (map (fun e => "'" ++ e ++ "'") paths)) = excess_list k paths.
Proof.
  induction paths as [|f rest IH]; [now destruct k |].
  rewrite join_quoted_cons.
  change (String "'" (f ++ String "'"
            match rest with
            | [] => ""
            | _ :: _ => "," ++ Js.join "," (map (fun e => "'" ++ e ++ "'") rest)
            end))
    with ("'" ++ f ++ "'" ++
          match rest with
          | [] => ""
          | _ :: _ => "," ++ Js.join "," (map (fun e => "'" ++ e ++ "'") rest)
          end).
  unfold excess_list in *.
  destruct rest as [|g rest]; cbn [map fold_right] in *.
  - destruct k; excess_arith.
  - rewrite !excess_app, IH. destruct k; excess_arith.
Qed.

Lemma excess_asArrayLiteral (k : Bracket) (paths : list string) :
  excess k (asArrayLiteral paths) = excess_list k paths.
Proof.
  unfold asArrayLiteral. rewrite !excess_app, excess_join. destruct k; excess_arith.
Qed.

Lemma excess_entryLoaderCreators (k : Bracket) t paths flag :
  excess k (entryLoaderCreators t paths flag) = excess_list k paths.
Proof.
  rewrite entryLoaderCreators_loadExpression. unfold loadExpression.
  destruct paths as [|f [|g rest]];
    rewrite ?excess_app, ?excess_asArrayLiteral;
    unfold excess_list; cbn [map fold_right];
    destruct k, t; try destruct (Js.is_false flag); excess_arith.
Qed.

Lemma excess_createEntriesLoaderFunction (k : Bracket) entries legacyEntries publicPath :
  excess k (createEntriesLoaderFunction entries legacyEntries publicPath) =
  (excess_list k (importPaths entries publicPath) +
   match legacyEntries with
   | Some legacy => excess_list k (importPaths legacy publicPath)
   | None => 0
   end)%Z.
Proof.
  unfold createEntriesLoaderFunction, importPaths.
  destruct legacyEntries as [legacy|];
    rewrite !excess_app, !excess_entryLoaderCreators; destruct k; excess_arith.
Qed.

Lemma excess_polyfillBlock (k : Bracket) polyfillsConfig publicPath polyfill :
  excess k (polyfillBlock polyfillsConfig publicPath polyfill) =
  excess_polyfill k polyfillsConfig publicPath polyfill.
Proof.
  unfold polyfillBlock, polyfillStatement, excess_polyfill, tested.
  destruct (polyfill_test polyfill) as [[|a t]|]; cbn [Js.truthy Js.default];
    try (now destruct k).
  rewrite !excess_app.
  destruct k, (Js.Boolean (polyfill_module polyfill)); cbn [Js.show_bool]; excess_arith.
Qed.

Lemma excess_createPolyfillsLoader (k : Bracket) polyfills polyfillsConfig publicPath :
  excess k (createPolyfillsLoader polyfills polyfillsConfig publicPath) =
  excess_polyfills k polyfillsConfig publicPath polyfills.
Proof.
  unfold createPolyfillsLoader, excess_polyfills.
  destruct polyfills as [ps|]; [| now destruct k].
  rewrite polyfills_fold_blocks, !excess_app.
  assert (H : excess k (flatten (map (polyfillBlock polyfillsConfig publicPath) ps)) =
              fold_right Z.add 0%Z (map (excess_polyfill k polyfillsConfig publicPath) ps)).
  { induction ps as [|p rest IH]; [now destruct k |].
    cbn [map fold_right].
    change (flatten (polyfillBlock polyfillsConfig publicPath p ::
                     map (polyfillBlock polyfillsConfig publicPath) rest))
      with (polyfillBlock polyfillsConfig publicPath p ++
            flatten (map (polyfillBlock polyfillsConfig publicPath) rest)).
    now rewrite excess_app, excess_polyfillBlock, IH. }
  rewrite H. destruct k; excess_arith.
Qed.

Lemma excess_createLoadScriptFunction (k : Bracket) entries legacyEntries polyfills :
  excess k (createLoadScriptFunction entries legacyEntries polyfills) = 0%Z.
Proof.
  unfold createLoadScriptFunction.
  repeat match goal with |- context [if ?c then _ else _] => destruct c end;
    now destruct k.
Qed.

Lemma excess_createExecuteLoadEntries (k : Bracket) polyfills :
  excess k (createExecuteLoadEntries polyfills) = 0%Z.
Proof.
  unfold createExecuteLoadEntries.
  match goal with |- context [if ?c then _ else _] => destruct c end; now destruct k.
Qed.

(** X10: in the unminified script the braces, and likewise the
    parentheses, are unbalanced by exactly as much as the caller's strings
    are (the cleaned paths, and the test, public path and file name of each
    tested polyfill): the text the generator itself writes is balanced. *)
Theorem createLoaderScript_balanced
    (k : Bracket) entries legacyEntries polyfills polyfillsConfig publicPath :
  exists code,
    createLoaderScript entries legacyEntries polyfills polyfillsConfig
      (Some false) publicPath = Some code /\
    excess k code =
    (excess_list k (importPaths entries publicPath) +
     match legacyEntries with
     | Some legacy => excess_list k (importPaths legacy publicPath)
     | None => 0
     end +
     excess_polyfills k polyfillsConfig publicPath polyfills)%Z.
Proof.
  eexists. split; [apply createLoaderScript_unminified |].
  rewrite !excess_app, excess_createLoadScriptFunction, excess_createPolyfillsLoader,
    excess_createEntriesLoaderFunction, excess_createExecuteLoadEntries.
  destruct k; excess_arith.
Qed.

(** X11: the same holds of the polyfills-only function, with the function
    name among the caller's strings. *)
Theorem createPolyfillsLoaderScript_balanced
    (k : Bracket) polyfills polyfillsConfig funcName publicPath :
  excess k (createPolyfillsLoaderScript polyfills polyfillsConfig funcName publicPath) =
  (excess k (Js.default "loadPolyfills" funcName) +
   excess_polyfills k polyfillsConfig publicPath polyfills)%Z.
Proof.
  unfold createPolyfillsLoaderScript.
  rewrite !excess_app, excess_createPolyfillsLoader.
  destruct k; excess_arith.
Qed.

(** *** What [includes] decides *)

Lemma prefix_split (pat s : string) :
  String.prefix pat s = true -> exists post, s = pat ++ post.
Proof.
  revert s. induction pat as [|x pat IH]; intros s H; [now exists s |].
  destruct s as [|y s]; simpl in H; [discriminate |].
  destruct (ascii_dec x y) as [->|]; [| discriminate].
  destruct (IH s H) as [post ->]. now exists post.
Qed.

Lemma includes_iff (pat s : string) :
  includes pat s = true <-> exists pre post, s = pre ++ pat ++ post.
Proof.
  split.
  - induction s as [|y s IH]; intros H.
    + destruct pat; [now exists "", "" | discriminate].
    + change (String.prefix pat (String y s) || includes pat s = true) in H.
      apply orb_true_iff in H. destruct H as [H|H].
      * apply prefix_split in H. destruct H as [post H]. now exists "", post.
      * destruct (IH H) as (pre & post & ->). now exists (String y pre), post.
  - intros (pre & post & ->). apply includes_app_r, includes_here.
Qed.

End Generator.

(** ** The generator on concrete inputs *)

Example createLoaderScript_modern_module_legacy_system :
  createLoaderScript unit keepPath filenameOfName identityMinify
    {| type := module; files := ["app.js"]; polyfillDynamicImport := Some false |}
    (Some {| type := system; files := ["legacy/app.js"; "legacy/b.js"];
             polyfillDynamicImport := None |})
    None tt (Some false) "/" =
  Some ("(function() {" ++ Js.nl ++
        "  function loadEntries() {" ++ Js.nl ++
        "    'noModule' in HTMLScriptElement.prototype ? import('app.js') : " ++
        "['legacy/app.js','legacy/b.js'].forEach(function (entry) { System.import(entry); });" ++
        Js.nl ++
        "  }" ++ Js.nl ++ Js.nl ++
        "  loadEntries()" ++ Js.nl ++
        "})();").
Proof. reflexivity. Qed.

Example createPolyfillsLoader_skips_untested :
  createPolyfillsLoader unit filenameOfName
    (Some [ {| polyfill_name := "fetch"; polyfill_test := Some "!('fetch' in window)";
               polyfill_module := None |};
            {| polyfill_name := "core-js"; polyfill_test := None;
               polyfill_module := Some true |};
            {| polyfill_name := "webcomponents"; polyfill_test := Some "!window.customElements";
               polyfill_module := Some true |} ])
    tt "/base/" =
  "  var polyfills = [];" ++ Js.nl ++
  "  if (!('fetch' in window)) { polyfills.push(loadScript('/base/polyfills/fetch.js', false)) }" ++
  Js.nl ++
  "  if (!window.customElements) { polyfills.push(loadScript('/base/polyfills/webcomponents.js', true)) }" ++
  Js.nl.
Proof. reflexivity. Qed.

Example createLoaderScript_minified_by_default :
  createLoaderScript unit keepPath filenameOfName (fun _ => Some "min")
    {| type := script; files := ["a.js"]; polyfillDynamicImport := None |}
    None None tt None "" = Some "min".
Proof. reflexivity. Qed.

(** C1 (as written): on the example input the script is not the string
    [(function() {loadEntries();})();]. *)
Lemma createLoaderScript_example_is_not_bare_call :
  createLoaderScript unit keepPath filenameOfName identityMinify
    {| type := script; files := ["a.js"]; polyfillDynamicImport := None |}
    None None tt (Some false) "" <>
  Some "(function() {loadEntries();})();".
Proof.
  apply createLoaderScript_single_script_entry_not_bare.
Qed.

(** C9 at the default function name [loadPolyfills]. *)
Lemma createPolyfillsLoaderScript_absent_default :
  count_char "[" (Js.default "loadPolyfills" None) = 0 /\
  includes "var polyfills = [];"
    (createPolyfillsLoaderScript unit filenameOfName None tt None "/") = false.
Proof.
  split; [reflexivity |].
  apply (createPolyfillsLoaderScript_absent unit filenameOfName tt None "/").
  reflexivity.
Defined.

(** X2 on two plain paths. *)
Lemma asArrayLiteral_injective_plain_paths :
  Forall quote_free ["a.js"; "b.js"] /\
  ["a.js"; "b.js"] = map (fun path => keepPath path "/") ["a.js"; "b.js"].
Proof.
  assert (H : Forall quote_free ["a.js"; "b.js"]) by (repeat constructor).
  split; [exact H |].
  apply (asArrayLiteral_injective ["a.js"; "b.js"]); [exact H | exact H | reflexivity].
Defined.

(** X6 on one tested polyfill. *)
Lemma tested_polyfill_is_loaded_fetch :
  let fetch := {| polyfill_name := "fetch"; polyfill_test := Some "!('fetch' in window)";
                  polyfill_module := None |} in
  let entries := {| type := module; files := ["app.js"]; polyfillDynamicImport := None |} in
  In fetch [fetch] /\ tested fetch = true /\
  createLoadScriptFunction entries None (Some [fetch]) = loadScriptFunction.
Proof.
  intros fetch entries.
  split; [now left |]. split; [reflexivity |].
  apply (tested_polyfill_is_loaded unit filenameOfName entries None [fetch] tt "/" fetch).
  - now left.
  - reflexivity.
Defined.

(** X7 on one polyfill without a test. *)
Lemma createLoaderScript_untested_polyfills_corejs :
  let corejs := {| polyfill_name := "core-js"; polyfill_test := None;
                   polyfill_module := None |} in
  let entries := {| type := module; files := ["app.js"]; polyfillDynamicImport := None |} in
  [corejs] <> [] /\
  forallb (fun p => negb (tested p)) [corejs] = true /\
  createLoaderScript unit keepPath filenameOfName identityMinify entries None
    (Some [corejs]) tt (Some false) "/" =
  Some ("(function() {" ++
        loadScriptFunction ++
        "  var polyfills = [];" ++ Js.nl ++
        Js.nl ++
        "  function loadEntries() {" ++ Js.nl ++
        "    window.importShim('app.js');" ++ Js.nl ++
        "  }" ++ Js.nl ++
        Js.nl ++
        "  polyfills.length ? Promise.all(polyfills).then(loadEntries) : loadEntries();" ++
        Js.nl ++
        "})();").
Proof.
  intros corejs entries.
  split; [discriminate |]. split; [reflexivity |].
  apply (createLoaderScript_untested_polyfills unit keepPath filenameOfName identityMinify
           entries None [corejs] tt "/").
  - discriminate.
  - reflexivity.
Defined.

(** C5 (as written): on the default, minified path the output is the
    minifier's; with a minifier that answers [min], a [script] entry needs
    the helper and the output does not hold its text. *)
Lemma createLoaderScript_minified_lacks_helper :
  createLoaderScript unit keepPath filenameOfName (fun _ => Some "min")
    {| type := script; files := ["a.js"]; polyfillDynamicImport := None |}
    None None tt None "" = Some "min" /\
  ~ (includes loadScriptFunction "min" = true <->
     needsLoadScript
       {| type := script; files := ["a.js"]; polyfillDynamicImport := None |}
       None None).
Proof.
  split; [reflexivity |].
  intros [_ H].
  assert (E : includes loadScriptFunction "min" = true).
  { apply H. right. left. reflexivity. }
  discriminate E.
Qed.

(** C10 (as written): on the default, minified path an empty polyfills
    sequence does not put the declaration in the output; with a minifier
    that answers [min] the output does not hold it. *)
Lemma createLoaderScript_minified_lacks_declaration :
  createLoaderScript unit keepPath filenameOfName (fun _ => Some "min")
    {| type := module; files := ["app.js"]; polyfillDynamicImport := None |}
    None (Some []) tt None "" = Some "min" /\
  includes "var polyfills = [];" "min" = false.
Proof.
  split; reflexivity.
Qed.
